(** * asset-transfer-api: local transaction checks and relay-to-system XCM types

    A shallow embedding of

    - [checkLocalTxInput], the check of the inputs of a local transaction
      (the module that sits next to [BaseError]), and
    - [RelayToSystem] (src/createXcmTypes/RelayToSystem.ts), the XCM type
      builder for transfers from the relay chain to a system parachain,

    together with the properties the specification states about them.

    Conventions.  A JavaScript string is a [string] of 8-bit characters (the
    ASCII fragment of UTF-16); [undefined] where the source can produce it is
    [None]; a JavaScript object used as a dictionary is a [gmap] when it is
    only indexed, and a list of entries in [Object.keys] order when it is
    scanned.  A [number] that the code only compares with literals is a [Z]. *)

From Stdlib Require Import ZArith String Ascii List Bool Lia.
From stdpp Require Import base option list gmap strings.

Local Open Scope string_scope.
Local Open Scope Z_scope.

(** ** The JavaScript primitives the sources rely on *)

Module Js.

(** [String.prototype.toLowerCase] on one character of the ASCII range. *)
Definition toLowerCaseAscii (c : ascii) : ascii :=
  let n := nat_of_ascii c in
  if ((65 <=? n) && (n <=? 90))%nat then ascii_of_nat (n + 32) else c.

Fixpoint toLowerCase (s : string) : string :=
  match s with
  | EmptyString => EmptyString
  | String c s' => String (toLowerCaseAscii c) (toLowerCase s')
  end.

(** [a.toLowerCase() === b.toLowerCase()] *)
Definition sameIgnoringCase (a b : string) : bool :=
  String.eqb (toLowerCase a) (toLowerCase b).

(** White space skipped by [parseInt] (the ASCII members of the
    ECMAScript WhiteSpace and LineTerminator productions). *)
Definition isWhiteSpace (c : ascii) : bool :=
  let n := nat_of_ascii c in
  ((n =? 9) || (n =? 10) || (n =? 11) || (n =? 12) || (n =? 13) || (n =? 32))%nat.

Fixpoint trimStart (s : string) : string :=
  match s with
  | String c s' => if isWhiteSpace c then trimStart s' else s
  | EmptyString => EmptyString
  end.

(** Value of a character as a digit, for radices up to 36. *)
Definition digitValue (c : ascii) : option Z :=
  let n := nat_of_ascii c in
  if ((48 <=? n) && (n <=? 57))%nat then Some (Z.of_nat n - 48)
  else if ((97 <=? n) && (n <=? 122))%nat then Some (Z.of_nat n - 87)
  else if ((65 <=? n) && (n <=? 90))%nat then Some (Z.of_nat n - 55)
  else None.

(** The longest prefix of radix-[radix] digits, read as an integer;
    [acc] is [None] as long as no digit has been read. *)
Fixpoint parseDigits (radix : Z) (s : string) (acc : option Z) : option Z :=
  match s with
  | EmptyString => acc
  | String c s' =>
      match digitValue c with
      | Some d =>
          if (d <? radix)%Z
          then parseDigits radix s' (Some (default 0 acc * radix + d)%Z)
          else acc
      | None => acc
      end
  end.

Definition stripSign (s : string) : Z * string :=
  match s with
  | String "-" r => (-1, r)
  | String "+" r => (1, r)
  | _ => (1, s)
  end.

Definition stripRadixPrefix (s : string) : Z * string :=
  match s with
  | String "0" (String "x" r) => (16, r)
  | String "0" (String "X" r) => (16, r)
  | _ => (10, s)
  end.

(** [parseInt(s)] with no radix argument; [None] is [NaN].  The result
    is kept exact (the rounding of large values to a double never turns
    a number into [NaN] or back). *)
Definition parseInt (s : string) : option Z :=
  let '(sign, s1) := stripSign (trimStart s) in
  let '(radix, s2) := stripRadixPrefix s1 in
  Z.mul sign <$> parseDigits radix s2 None.

(** [Number.isNaN] on the result of [parseInt]. *)
Definition isNaN (n : option Z) : bool :=
  match n with None => true | Some _ => false end.

(** Truthiness of a string-or-undefined value. *)
Definition truthyString (v : option string) : bool :=
  match v with
  | Some s => negb (String.eqb s "")
  | None => false
  end.

End Js.

(** ** Errors *)

(** Modelled from the spec: the enumeration [BaseErrorsEnum] of
    errors/BaseError.ts, which is not among the sources; the specification
    lists a closed set of error kinds, of which [checkLocalTxInput] raises
    [InvalidInput] and [AssetNotFound] itself. *)
Inductive BaseErrorsEnum : Type :=
| InvalidInput
| AssetNotFound
| UnknownChain
| UnsupportedRoute
| LiquidTokenInvalid.

(** What a [throw] carries: a [BaseError] of the library, or the run-time's
    own [TypeError] (reading a property of [undefined]). *)
Inductive Thrown : Type :=
| BaseError (message : string) (name : BaseErrorsEnum)
| TypeError (message : string).

(** How a call completes: it returns a value or throws.  For an [async]
    function these are the resolution and the rejection of its promise. *)
Inductive Completion (A : Type) : Type :=
| Returns (a : A)
| Throws (e : Thrown).
Arguments Returns {A} a.
Arguments Throws {A} e.

Definition errorKind {A : Type} (c : Completion A) : option BaseErrorsEnum :=
  match c with
  | Throws (BaseError _ k) => Some k
  | _ => None
  end.

(** ** The check of local transaction inputs *)

Module LocalTx.

Inductive LocalTxType : Type :=
| Assets
| Balances
| ForeignAssets
| PoolAssets.

(** Modelled from the spec: the registry's per-chain record (the [Registry]
    class is not among the sources).  [checkLocalTxInput] reads [tokens],
    the native token symbols, and the keys of [assetsInfo]; the entries of
    [assetsInfo] are listed in [Object.keys] order. *)
Record ChainInfo : Type := {
  specName : string;
  tokens : list string;
  assetsInfo : list (string * string);
  foreignAssetsInfo : list (string * string);
}.

(** [registry.currentRelayRegistry]: chain id to chain record. *)
Record Registry : Type := {
  currentRelayRegistry : gmap string ChainInfo;
}.

(** [Object.keys(o)] *)
Definition Object_keys (o : list (string * string)) : list string := o.*1.

(** The [Option] codec the chain answers [api.query.assets.asset] with. *)
Record AssetOption : Type := { isNone : bool }.

(** The calls [checkLocalTxInput] makes to code outside itself: helpers of
    the library that are not among the sources, and the chain behind
    [api].  Each carries the arguments the call site passes ([api] apart,
    which is the interpreter of the calls). *)
Inductive Call : Type :=
| ForeignAssetMultiLocationIsInRegistry (multiLocationStr : string) (registry : Registry)
| ForeignAssetsMultiLocationExists (multiLocationStr : string)
| GetChainIdBySpecName (registry : Registry) (specName : string)
| CheckLiquidTokenValidity (systemParachainInfo : option ChainInfo) (assetId : option string)
| GetAssetHubAssetId (assetId specName : string) (isForeignAssetsTransfer : bool)
| QueryAssetsAsset (assetId : string).

(** What each call hands back when it returns. *)
Definition Resp (c : Call) : Type :=
  match c with
  | ForeignAssetMultiLocationIsInRegistry _ _ => bool
  | ForeignAssetsMultiLocationExists _ => bool
  | GetChainIdBySpecName _ _ => string
  | CheckLiquidTokenValidity _ _ => unit
  | GetAssetHubAssetId _ _ _ => string
  | QueryAssetsAsset _ => AssetOption
  end.

(** The calls the source awaits.  Only these can involve the live chain:
    the two helpers called synchronously can read nothing but the bundled
    registry. *)
Definition isAwaited (c : Call) : bool :=
  match c with
  | ForeignAssetMultiLocationIsInRegistry _ _ | GetChainIdBySpecName _ _ => false
  | ForeignAssetsMultiLocationExists _ | CheckLiquidTokenValidity _ _
  | GetAssetHubAssetId _ _ _ | QueryAssetsAsset _ => true
  end.

(** An [async] body: it returns, throws, or calls out and goes on with the
    answer.  There is no [try] in the sources, so a call that throws ends
    the body with what it threw. *)
Inductive Async (A : Type) : Type :=
| Return (a : A)
| Throw (e : Thrown)
| Invoke (c : Call) (k : Resp c -> Async A).
Arguments Return {A} a.
Arguments Throw {A} e.
Arguments Invoke {A} c k.

Fixpoint bind {A B : Type} (p : Async A) (f : A -> Async B) : Async B :=
  match p with
  | Return a => f a
  | Throw e => Throw e
  | Invoke c k => Invoke c (fun r => bind (k r) f)
  end.

Definition call (c : Call) : Async (Resp c) := Invoke c Return.

Notation "x <- p ;; q" := (bind p (fun x => q))
  (at level 100, p at next level, right associativity).
Notation "'throw' 'new' e" := (Throw e) (at level 10, e at level 9).

(** The collaborators: how each call completes.  One run of
    [checkLocalTxInput] never repeats a call, so an answer that depends on
    the call alone loses nothing. *)
Definition Api : Type := forall c : Call, Completion (Resp c).

(** Running a body against the collaborators: the calls made, in order,
    and how the body completed. *)
Fixpoint run {A : Type} (api : Api) (p : Async A) : list Call * Completion A :=
  match p with
  | Return a => ([], Returns a)
  | Throw e => ([], Throws e)
  | Invoke c k =>
      match api c with
      | Returns r => let '(t, o) := run api (k r) in (c :: t, o)
      | Throws e => ([c], Throws e)
      end
  end.

(** The imported helpers and the chain query, as the call sites name them. *)
Definition foreignAssetMultiLocationIsInRegistry
    (multiLocationStr : string) (registry : Registry) : Async bool :=
  call (ForeignAssetMultiLocationIsInRegistry multiLocationStr registry).

Definition foreignAssetsMultiLocationExists (multiLocationStr : string) : Async bool :=
  call (ForeignAssetsMultiLocationExists multiLocationStr).

Definition getChainIdBySpecName (registry : Registry) (specName : string) : Async string :=
  call (GetChainIdBySpecName registry specName).

Definition checkLiquidTokenValidity
    (systemParachainInfo : option ChainInfo) (assetId : option string) : Async unit :=
  call (CheckLiquidTokenValidity systemParachainInfo assetId).

Definition getAssetHubAssetId
    (assetId specName : string) (isForeignAssetsTransfer : bool) : Async string :=
  call (GetAssetHubAssetId assetId specName isForeignAssetsTransfer).

Definition api_query_assets_asset (assetId : string) : Async AssetOption :=
  call (QueryAssetsAsset assetId).

Definition checkLocalTxInput
    (assetIds amounts : list string) (specName : string) (registry : Registry)
    (isForeignAssetsTransfer isLiquidTokenTransfer : bool) : Async LocalTxType :=
  (* Ensure the lengths in assetIds and amounts is correct *)
  if (1 <? length assetIds)%nat || negb (length amounts =? 1)%nat then
    throw new (BaseError
      "Local transactions must have the `assetIds` input be a length of 1 or 0, and the `amounts` input be a length of 1"
      InvalidInput)
  else if isForeignAssetsTransfer then
    match assetIds with
    | [] =>
        throw new (BaseError
          "Local foreignAsset transactions must have the `assetIds` input be a length of 1"
          InvalidInput)
    | multiLocationStr :: _ =>
        (* check the registrys foreignAssetsInfo to see if the provided foreign asset exists *)
        foreignAssetIsInRegistry <-
          foreignAssetMultiLocationIsInRegistry multiLocationStr registry ;;
        if foreignAssetIsInRegistry then Return ForeignAssets
        else
          isValidForeignAsset <- foreignAssetsMultiLocationExists multiLocationStr ;;
          if isValidForeignAsset then Return ForeignAssets
          else
            throw new (BaseError
              ("MultiLocation " +:+ multiLocationStr +:+ " not found") AssetNotFound)
    end
  else if isLiquidTokenTransfer then
    let relayChainInfo := currentRelayRegistry registry in
    systemChainId <- getChainIdBySpecName registry specName ;;
    let systemParachainInfo := relayChainInfo !! systemChainId in
    (* If anything is incorrect this will throw an error. *)
    _ <- checkLiquidTokenValidity systemParachainInfo (assetIds !! 0%nat) ;;
    Return PoolAssets
  else
    let relayChainInfo := currentRelayRegistry registry in
    systemChainId <- getChainIdBySpecName registry specName ;;
    let systemParachainInfo := relayChainInfo !! systemChainId in
    match assetIds with
    | [] =>
        (* We assume when the assetId's input is empty that the native
           token is to be transferred. *)
        Return Balances
    | assetId0 :: _ =>
        match systemParachainInfo with
        | None => throw new (TypeError "Cannot read properties of undefined (reading 'tokens')")
        | Some info =>
            let isNativeToken :=
              find (fun token => Js.sameIgnoringCase token assetId0) (tokens info) in
            match isNativeToken with
            | Some _ => Return Balances
            | None =>
                let isNotANumber := Js.isNaN (Js.parseInt assetId0) in
                (* not a number so we check the registry using the symbol *)
                assetId <-
                  (if isNotANumber
                   then getAssetHubAssetId assetId0 specName isForeignAssetsTransfer
                   else Return assetId0) ;;
                let isAssetAvailableInRegistry :=
                  find (fun asset => Js.sameIgnoringCase asset assetId)
                       (Object_keys (assetsInfo info)) in
                if Js.truthyString isAssetAvailableInRegistry then Return Assets
                else if negb isNotANumber then
                  (* if asset is not in registry, query the assets pallet
                     to see if it has a value *)
                  asset <- api_query_assets_asset assetId ;;
                  if isNone asset then
                    throw new (BaseError
                      ("The integer assetId " +:+ assetId +:+ " was not found.")
                      AssetNotFound)
                  else Return Assets
                else Return Assets
            end
        end
    end.

(** The four errors [checkLocalTxInput] constructs itself. *)
Definition invalidLengths : Thrown :=
  BaseError
    "Local transactions must have the `assetIds` input be a length of 1 or 0, and the `amounts` input be a length of 1"
    InvalidInput.

Definition invalidForeignLength : Thrown :=
  BaseError
    "Local foreignAsset transactions must have the `assetIds` input be a length of 1"
    InvalidInput.

Definition multiLocationNotFound (multiLocationStr : string) : Thrown :=
  BaseError ("MultiLocation " +:+ multiLocationStr +:+ " not found") AssetNotFound.

Definition integerAssetNotFound (assetId : string) : Thrown :=
  BaseError ("The integer assetId " +:+ assetId +:+ " was not found.") AssetNotFound.

End LocalTx.

(** ** src/createXcmTypes/RelayToSystem.ts *)

Module RelayToSystem.

(** The XCM values the builder writes as object literals. *)
Inductive Junction : Type :=
| AccountId32 (network : option string) (id : string)
| Parachain (destId : string).

Inductive Junctions : Type :=
| X1 (junction : Junction)
| Here (v : string).

Record MultiLocation : Type := {
  parents : Z;
  interior : Junctions;
}.

(** An object with the single key [V2] or [V3]: the builder writes no
    other version key. *)
Inductive Versioned (A : Type) : Type :=
| V2 (payload : A)
| V3 (payload : A).
Arguments V2 {A} payload.
Arguments V3 {A} payload.

Definition XcmDestBenificiary : Type := Versioned MultiLocation.

(** [amounts[0]] is [undefined] when [amounts] is empty. *)
Inductive Fungibility : Type :=
| Fungible (amount : option string).

Inductive XcmAssetId : Type :=
| Concrete (location : MultiLocation).

Record XcmMultiAsset : Type := {
  fun_ : Fungibility;
  id : XcmAssetId;
}.

Definition UnionXcmMultiAssets : Type := Versioned (list XcmMultiAsset).

(** Modelled from the spec: the type of a weight component.  The
    declaration of [CreateWeightLimitOpts] is not among the sources; the
    specification calls the components numeric and writes them as numbers,
    the call sites of the library pass them as strings, so both are
    admitted. *)
Inductive WeightComponent : Type :=
| WNumber (n : Z)
| WString (s : string).

(** JavaScript truthiness of a component that is present. *)
Definition truthy (w : WeightComponent) : bool :=
  match w with
  | WNumber n => negb (n =? 0)
  | WString s => negb (String.eqb s "")
  end.

(** [{ refTime?, proofSize? }] *)
Record WeightLimitOpts : Type := {
  refTime : option WeightComponent;
  proofSize : option WeightComponent;
}.

(** [{ isLimited?, weightLimit? }] *)
Record CreateWeightLimitOpts : Type := {
  isLimited : option bool;
  weightLimit : option WeightLimitOpts;
}.

Inductive XcmWeight : Type :=
| Limited (refTime proofSize : WeightComponent)
| Unlimited.

(** Create a XcmVersionedMultiLocation type for a beneficiary. *)
Definition createBeneficiary (accountId : string) (xcmVersion : Z) : XcmDestBenificiary :=
  if xcmVersion =? 2 then
    V2 {| parents := 0; interior := X1 (AccountId32 (Some "Any") accountId) |}
  else
    V3 {| parents := 0; interior := X1 (AccountId32 None accountId) |}.

(** Create a XcmVersionedMultiLocation type for a destination. *)
Definition createDest (destId : string) (xcmVersion : Z) : XcmDestBenificiary :=
  if xcmVersion =? 2 then
    V2 {| parents := 0; interior := X1 (Parachain destId) |}
  else
    V3 {| parents := 0; interior := X1 (Parachain destId) |}.

(** Create a VersionedMultiAsset type.  The promise is always resolved. *)
Definition createAssets (amounts : list string) (xcmVersion : Z)
  : Completion UnionXcmMultiAssets :=
  let multiAssets : list XcmMultiAsset := [] in
  let amount := amounts !! 0%nat in
  let multiAsset :=
    {| fun_ := Fungible amount;
       id := Concrete {| interior := Here ""; parents := 0 |} |} in
  let multiAssets := (multiAssets ++ [multiAsset])%list in
  if xcmVersion =? 2 then Returns (V2 multiAssets) else Returns (V3 multiAssets).

(** [opts.weightLimit?.refTime] and [opts.weightLimit?.proofSize] *)
Definition optRefTime (opts : CreateWeightLimitOpts) : option WeightComponent :=
  weightLimit opts ≫= refTime.
Definition optProofSize (opts : CreateWeightLimitOpts) : option WeightComponent :=
  weightLimit opts ≫= proofSize.

(** Create an XcmV3WeightLimit type: the conjunction of the three operands
    is tested for truthiness. *)
Definition createWeightLimit (opts : CreateWeightLimitOpts) : XcmWeight :=
  match isLimited opts, optRefTime opts, optProofSize opts with
  | Some true, Some r, Some p =>
      if truthy r && truthy p then Limited r p else Unlimited
  | _, _, _ => Unlimited
  end.

(** return the correct feeAssetItem based on XCM direction. *)
Definition createFeeAssetItem : Completion Z := Returns 0.

(** Modelled from the spec: the enumeration [XcmVersion] = {V2, V3, V4} of
    the version tags a payload can carry. *)
Inductive XcmVersion : Type := XcmV2 | XcmV3 | XcmV4.

(** The tag that names a requested version number. *)
Definition requestedTag (xcmVersion : Z) : option XcmVersion :=
  if xcmVersion =? 2 then Some XcmV2
  else if xcmVersion =? 3 then Some XcmV3
  else if xcmVersion =? 4 then Some XcmV4
  else None.

(** The tag an output carries (the one key of the object). *)
Definition versionTag {A : Type} (v : Versioned A) : XcmVersion :=
  match v with
  | V2 _ => XcmV2
  | V3 _ => XcmV3
  end.

Definition payloadOf {A : Type} (v : Versioned A) : A :=
  match v with
  | V2 a => a
  | V3 a => a
  end.

(** The tag of a resolved asset list. *)
Definition resolvedTag {A : Type} (c : Completion (Versioned A)) : option XcmVersion :=
  match c with
  | Returns v => Some (versionTag v)
  | Throws _ => None
  end.

(** The asset list of a resolved promise. *)
Definition resolvedAssets (c : Completion UnionXcmMultiAssets) : option (list XcmMultiAsset) :=
  match c with
  | Returns v => Some (payloadOf v)
  | Throws _ => None
  end.

(** The descriptor [createAssets] writes for one amount. *)
Definition nativeAsset (amount : option string) : XcmMultiAsset :=
  {| fun_ := Fungible amount;
     id := Concrete {| parents := 0; interior := Here "" |} |}.

(** The tags of the three versioned fragments built for one request. *)
Definition fragmentTags (accountId destId : string) (amounts : list string) (xcmVersion : Z)
  : list (option XcmVersion) :=
  [ Some (versionTag (createBeneficiary accountId xcmVersion));
    Some (versionTag (createDest destId xcmVersion));
    resolvedTag (createAssets amounts xcmVersion) ].

(** A location with the [network] key of its account junction removed. *)
Definition withoutNetwork (l : MultiLocation) : MultiLocation :=
  match interior l with
  | X1 (AccountId32 _ account) =>
      {| parents := parents l; interior := X1 (AccountId32 None account) |}
  | _ => l
  end.

End RelayToSystem.

(** ** Concrete registries and chains used to exercise the statements *)

Module Fixtures.
Import LocalTx.

(** A system parachain with one native token and two registered assets. *)
Definition assetHubKusama : ChainInfo :=
  {| specName := "statemine";
     tokens := ["KSM"];
     assetsInfo := [("8", "RMRK"); ("1984", "USDt")];
     foreignAssetsInfo := [] |}.

Definition kusamaRegistry : Registry :=
  {| currentRelayRegistry := {[ "1000" := assetHubKusama ]} |}.

(** A chain that knows nothing beyond the registry: every existence query
    is answered in the negative, the symbol [USDC] is resolved to the id
    [1337] (which [kusamaRegistry] does not list), every other symbol to
    [1984]. *)
Definition emptyChain : Api := fun c =>
  match c return Completion (Resp c) with
  | ForeignAssetMultiLocationIsInRegistry _ _ => Returns false
  | ForeignAssetsMultiLocationExists _ => Returns false
  | GetChainIdBySpecName _ _ => Returns "1000"
  | CheckLiquidTokenValidity _ _ => Returns ()
  | GetAssetHubAssetId a _ _ =>
      if String.eqb a "USDC" then Returns "1337" else Returns "1984"
  | QueryAssetsAsset _ => Returns {| isNone := true |}
  end.

(** A chain on which every foreign multi-location is registered, but
    which the bundled registry does not know. *)
Definition liveOnlyChain : Api := fun c =>
  match c return Completion (Resp c) with
  | ForeignAssetsMultiLocationExists _ => Returns true
  | other => emptyChain other
  end.

(** A chain whose foreign assets the bundled registry already lists. *)
Definition bundledChain : Api := fun c =>
  match c return Completion (Resp c) with
  | ForeignAssetMultiLocationIsInRegistry _ _ => Returns true
  | other => emptyChain other
  end.

(** A multi-location key, written without the quotes of its JSON form. *)
Definition dotLocation : string := "{parents:1,interior:{Here:null}}".

End Fixtures.

(** ** scripts/testNetworkSetup.ts: the status callback of the batch *)

Module TestNetworkSetup.

(** How a call of the script completes: normally, or by throwing an
    [Error] with a message. *)
Inductive Outcome (A : Type) : Type :=
| Done (a : A)
| Raised (message : string).
Arguments Done {A} a.
Arguments Raised {A} message.

(** [status] of a submitted extrinsic, as far as the callback reads it. *)
Record ExtrinsicStatus : Type := {
  isInBlock : bool;
  isFinalized : bool;
}.

(** A [DispatchError]: a module error carries the indices that
    [findMetaError] looks up ([asModule]); any other error (Other,
    CannotLookup, BadOrigin, ...) is known by what its [toString] gives. *)
Inductive DispatchError : Type :=
| ModuleError (index error : Z)
| PlainError (shown : string).

Definition isModule (e : DispatchError) : bool :=
  match e with
  | ModuleError _ _ => true
  | PlainError _ => false
  end.

(** An event record of the block: [system.ExtrinsicFailed], whose first
    datum is the dispatch error, or any other event. *)
Inductive EventRecord : Type :=
| ExtrinsicFailed (error : DispatchError)
| OtherEvent (section method : string).

(** [parachainApi.events.system.ExtrinsicFailed.is(event)] *)
Definition isExtrinsicFailed (ev : EventRecord) : bool :=
  match ev with
  | ExtrinsicFailed _ => true
  | OtherEvent _ _ => false
  end.

(** What [registry.findMetaError] decodes a module error to. *)
Record MetaError : Type := {
  docs : list string;
  method : string;
  section : string;
}.

(** [docs.join(' ')] *)
Definition join (sep : string) (parts : list string) : string :=
  String.concat sep parts.

(** The body of the [forEach] callback for one failed event: the line it
    logs, or what [findMetaError] threw. *)
Definition reportFailure
    (findMetaError : Z -> Z -> Outcome MetaError) (ev : EventRecord)
  : Outcome (list string) :=
  match ev with
  | ExtrinsicFailed (ModuleError index error) =>
      (* for module errors, we have the section indexed, lookup *)
      match findMetaError index error with
      | Done decoded =>
          Done [section decoded +:+ "." +:+ method decoded +:+ ": "
                   +:+ join " " (docs decoded)]
      | Raised e => Raised e
      end
  | ExtrinsicFailed (PlainError shown) =>
      (* Other, CannotLookup, BadOrigin, no extra info *)
      Done [shown]
  | OtherEvent _ _ => Done []
  end.

(** [Array.prototype.forEach] with a callback that logs: the lines logged
    so far are kept when the callback throws. *)
Fixpoint forEach {A : Type} (f : A -> Outcome (list string)) (l : list A)
  : list string * Outcome unit :=
  match l with
  | [] => ([], Done ())
  | x :: rest =>
      match f x with
      | Done lines =>
          let '(more, o) := forEach f rest in ((lines ++ more)%list, o)
      | Raised e => ([], Raised e)
      end
  end.

(** The callback handed to [batch.signAndSend]: the lines it writes with
    [console.log], in order, and how it completes. *)
Definition onStatus
    (findMetaError : Z -> Z -> Outcome MetaError)
    (status : ExtrinsicStatus) (events : list EventRecord)
  : list string * Outcome unit :=
  if isInBlock status || isFinalized status then
    forEach (reportFailure findMetaError) (List.filter isExtrinsicFailed events)
  else ([], Done ()).

(** The events whose module error the metadata can decode (events without
    a module error need no decoding). *)
Definition decodable
    (findMetaError : Z -> Z -> Outcome MetaError) (ev : EventRecord) : Prop :=
  match ev with
  | ExtrinsicFailed (ModuleError index error) =>
      exists decoded, findMetaError index error = Done decoded
  | _ => True
  end.

End TestNetworkSetup.

(** ** Further chains and inputs for the statements below *)

Module Scenarios.
Import LocalTx.

(** A chain on which every queried asset id exists. *)
Definition fundedChain : Api := fun c =>
  match c return Completion (Resp c) with
  | QueryAssetsAsset _ => Returns {| isNone := false |}
  | other => Fixtures.emptyChain other
  end.

(** A spec name that resolves to a chain id the registry has no record of. *)
Definition strayChain : Api := fun c =>
  match c return Completion (Resp c) with
  | GetChainIdBySpecName _ _ => Returns ""
  | other => Fixtures.emptyChain other
  end.

(** A chain whose symbol resolution fails. *)
Definition unknownSymbol : Thrown :=
  BaseError "assetId DOTTY is not a valid symbol or integer asset id" AssetNotFound.

Definition deafChain : Api := fun c =>
  match c return Completion (Resp c) with
  | GetAssetHubAssetId _ _ _ => Throws unknownSymbol
  | other => Fixtures.emptyChain other
  end.

(** Metadata that knows the module error (50, 3) only. *)
Definition assetsMeta (index error : Z)
  : TestNetworkSetup.Outcome TestNetworkSetup.MetaError :=
  if (index =? 50) && (error =? 3) then
    TestNetworkSetup.Done
      {| TestNetworkSetup.docs := ["The asset ID"; "is already taken."];
         TestNetworkSetup.method := "InUse";
         TestNetworkSetup.section := "assets" |}
  else TestNetworkSetup.Raised "findMetaError: Unable to find Error".

End Scenarios.

(** ** What the symbol resolution promises *)

Module Resolution.
Import LocalTx.







(** A chain that keeps the contract over [Fixtures.kusamaRegistry]: the
    symbols of the table are resolved to their ids, any other symbol is
    not found, and the chain has no asset beyond the table. *)
Definition symbolNotFound : Thrown :=
  BaseError "assetId is not a valid symbol or integer asset id" AssetNotFound.

Definition honestChain : Api := fun c =>
  match c return Completion (Resp c) with
  | GetAssetHubAssetId symbol _ _ =>
      if Js.sameIgnoringCase "RMRK" symbol then Returns "8"
      else if Js.sameIgnoringCase "USDt" symbol then Returns "1984"
      else Throws symbolNotFound
  | other => Fixtures.emptyChain other
  end.

End Resolution.

(** * Properties *)

Import LocalTx.

(** ** The JavaScript primitives on examples *)

Example parseInt_examples :
  Js.parseInt "1984" = Some 1984 /\ Js.parseInt "  -12abc" = Some (-12) /\
  Js.parseInt "USDT" = None /\ Js.parseInt "" = None /\ Js.parseInt "0x1F" = Some 31 /\
  Js.parseInt "0x" = None /\ Js.parseInt "1e3" = Some 1 /\
  Js.toLowerCase "UsDt-1" = "usdt-1".
Proof. repeat split; reflexivity. Qed.

(** ** Running a body *)

Section Running.
Context {A : Type} (api : Api).

Lemma run_call_returns (c : Call) (r : Resp c) (f : Resp c -> Async A) :
  api c = Returns r ->
  run api (bind (call c) f) = (c :: (run api (f r)).1, (run api (f r)).2).
Proof.
  intros Hc. unfold call. cbn [bind run]. rewrite Hc.
  destruct (run api (f r)) as [t o]. reflexivity.
Qed.

Lemma run_call_throws (c : Call) (e : Thrown) (f : Resp c -> Async A) :
  api c = Throws e ->
  run api (bind (call c) f) = ([c], Throws e).
Proof. intros Hc. unfold call. cbn [bind run]. rewrite Hc. reflexivity. Qed.

Lemma run_return (a : A) : run api (Return a) = ([], Returns a).
Proof. reflexivity. Qed.

Lemma run_throw (e : Thrown) : run api (Throw e : Async A) = ([], Throws e).
Proof. reflexivity. Qed.
End Running.

(** ** The branches of [checkLocalTxInput] on inputs of the accepted lengths *)

Lemma checkLocalTxInput_foreign_branch ms amount spec registry isLiquid :
  checkLocalTxInput [ms] [amount] spec registry true isLiquid =
  (inRegistry <- call (ForeignAssetMultiLocationIsInRegistry ms registry) ;;
   if inRegistry then Return ForeignAssets
   else
     onChain <- call (ForeignAssetsMultiLocationExists ms) ;;
     if onChain then Return ForeignAssets else Throw (multiLocationNotFound ms)).
Proof. reflexivity. Qed.

Lemma checkLocalTxInput_liquid_branch assetIds amount spec registry :
  (length assetIds <= 1)%nat ->
  checkLocalTxInput assetIds [amount] spec registry false true =
  (systemChainId <- call (GetChainIdBySpecName registry spec) ;;
   _ <- call (CheckLiquidTokenValidity
                (currentRelayRegistry registry !! systemChainId) (assetIds !! 0%nat)) ;;
   Return PoolAssets).
Proof.
  intros Hlen. unfold checkLocalTxInput.
  destruct assetIds as [|a [|b rest]]; [reflexivity | reflexivity | simpl in Hlen; lia].
Qed.

Lemma find_sameIgnoringCase_None (x : string) (l : list string) :
  (forall y, y ∈ l -> Js.toLowerCase y <> Js.toLowerCase x) ->
  find (fun y => Js.sameIgnoringCase y x) l = None.
Proof.
  induction l as [|y l IH]; intros Hall; [reflexivity|].
  cbn [find]. unfold Js.sameIgnoringCase at 1.
  destruct (String.eqb_spec (Js.toLowerCase y) (Js.toLowerCase x)) as [Heq|_].
  - exfalso. apply (Hall y); [left | exact Heq].
  - apply IH. intros z Hz. apply Hall. right. exact Hz.
Qed.

Lemma find_sameIgnoringCase_Some (x y : string) (l : list string) :
  y ∈ l -> Js.toLowerCase y = Js.toLowerCase x ->
  exists z, find (fun y => Js.sameIgnoringCase y x) l = Some z.
Proof.
  intros Hin Heq.
  destruct (find (fun y => Js.sameIgnoringCase y x) l) as [z|] eqn:Hfind; [eauto|].
  exfalso. apply list_elem_of_In in Hin.
  pose proof (find_none _ _ Hfind _ Hin) as Hno. cbn beta in Hno.
  unfold Js.sameIgnoringCase in Hno. rewrite Heq, String.eqb_refl in Hno. discriminate.
Qed.

Ltac name_calls :=
  unfold foreignAssetMultiLocationIsInRegistry, foreignAssetsMultiLocationExists,
    getChainIdBySpecName, checkLiquidTokenValidity, getAssetHubAssetId,
    api_query_assets_asset.

Ltac enter_checkLocalTxInput :=
  unfold checkLocalTxInput; cbn [length Nat.ltb Nat.leb Nat.eqb negb orb]; name_calls.

(** ** Validation of the lengths *)

(** C7.  Whenever [assetIds] has more than one element or [amounts] does not
    have exactly one, [checkLocalTxInput] is the single statement that
    throws the [InvalidInput] error, whatever the other arguments are: run
    against any collaborators it makes no call at all and its promise is
    rejected with that error. *)
Theorem checkLocalTxInput_rejects_wrong_lengths
    (assetIds amounts : list string) (spec : string) (registry : Registry)
    (isForeign isLiquid : bool) :
  (1 < length assetIds \/ length amounts <> 1)%nat ->
  checkLocalTxInput assetIds amounts spec registry isForeign isLiquid
    = Throw invalidLengths
  /\ (forall api : Api,
        run api (checkLocalTxInput assetIds amounts spec registry isForeign isLiquid)
          = ([], Throws invalidLengths))
  /\ errorKind (Throws invalidLengths : Completion LocalTxType) = Some InvalidInput.
Proof.
  intros Hlen.
  assert (Hguard : (1 <? length assetIds)%nat || negb (length amounts =? 1)%nat = true).
  { destruct Hlen as [Hlong | Hne].
    - apply orb_true_iff. left. apply Nat.ltb_lt. exact Hlong.
    - apply orb_true_iff. right. apply negb_true_iff, Nat.eqb_neq. exact Hne. }
  assert (Hbody : checkLocalTxInput assetIds amounts spec registry isForeign isLiquid
                  = Throw invalidLengths).
  { unfold checkLocalTxInput. rewrite Hguard. reflexivity. }
  split; [exact Hbody|]. split; [|reflexivity].
  intros api. rewrite Hbody. reflexivity.
Qed.

Lemma checkLocalTxInput_rejects_wrong_lengths_witness :
  checkLocalTxInput ["1984"; "8"] ["100"] "statemine" Fixtures.kusamaRegistry false true
    = Throw invalidLengths
  /\ run Fixtures.liveOnlyChain
       (checkLocalTxInput [Fixtures.dotLocation] [] "statemine" Fixtures.kusamaRegistry true false)
     = ([], Throws invalidLengths).
Proof.
  split.
  - apply (checkLocalTxInput_rejects_wrong_lengths
             ["1984"; "8"] ["100"] "statemine" Fixtures.kusamaRegistry false true).
    left. simpl. lia.
  - apply (checkLocalTxInput_rejects_wrong_lengths
             [Fixtures.dotLocation] [] "statemine" Fixtures.kusamaRegistry true false).
    right. simpl. lia.
Defined.

(** ** Foreign assets *)

(** C8.  On a foreign-asset call with one multi-location and one amount the
    registry's foreign-asset table is asked first.  When it has the
    multi-location the result is [ForeignAssets] and that lookup is the only
    call made (nothing is awaited); when it has not, the live existence
    query is issued next, and
    the result is [ForeignAssets] if the chain confirms the multi-location
    and the [AssetNotFound] error if it does not. *)
Theorem checkLocalTxInput_foreign_registry_then_chain
    (api : Api) (ms amount spec : string) (registry : Registry) (isLiquid : bool) :
  let body := checkLocalTxInput [ms] [amount] spec registry true isLiquid in
  let inRegistry := ForeignAssetMultiLocationIsInRegistry ms registry in
  let onChain := ForeignAssetsMultiLocationExists ms in
  (api inRegistry = Returns true ->
     run api body = ([inRegistry], Returns ForeignAssets)
     /\ existsb isAwaited (run api body).1 = false)
  /\ (api inRegistry = Returns false -> api onChain = Returns true ->
        run api body = ([inRegistry; onChain], Returns ForeignAssets))
  /\ (api inRegistry = Returns false -> api onChain = Returns false ->
        run api body = ([inRegistry; onChain], Throws (multiLocationNotFound ms))
        /\ errorKind (run api body).2 = Some AssetNotFound).
Proof.
  cbv zeta. rewrite checkLocalTxInput_foreign_branch.
  split; [|split].
  - intros Hreg.
    rewrite (run_call_returns api _ _ _ Hreg). split; reflexivity.
  - intros Hreg Hchain.
    rewrite (run_call_returns api _ _ _ Hreg).
    rewrite (run_call_returns api _ _ _ Hchain). reflexivity.
  - intros Hreg Hchain.
    rewrite (run_call_returns api _ _ _ Hreg).
    rewrite (run_call_returns api _ _ _ Hchain). split; reflexivity.
Qed.

Lemma checkLocalTxInput_foreign_registry_then_chain_witness :
  run Fixtures.bundledChain
      (checkLocalTxInput [Fixtures.dotLocation] ["100"] "statemine"
         Fixtures.kusamaRegistry true false)
    = ([ForeignAssetMultiLocationIsInRegistry Fixtures.dotLocation Fixtures.kusamaRegistry],
       Returns ForeignAssets)
  /\ run Fixtures.liveOnlyChain
       (checkLocalTxInput [Fixtures.dotLocation] ["100"] "statemine"
          Fixtures.kusamaRegistry true false)
     = ([ForeignAssetMultiLocationIsInRegistry Fixtures.dotLocation Fixtures.kusamaRegistry;
         ForeignAssetsMultiLocationExists Fixtures.dotLocation],
        Returns ForeignAssets)
  /\ run Fixtures.emptyChain
       (checkLocalTxInput [Fixtures.dotLocation] ["100"] "statemine"
          Fixtures.kusamaRegistry true false)
     = ([ForeignAssetMultiLocationIsInRegistry Fixtures.dotLocation Fixtures.kusamaRegistry;
         ForeignAssetsMultiLocationExists Fixtures.dotLocation],
        Throws (multiLocationNotFound Fixtures.dotLocation)).
Proof.
  split; [|split].
  - apply (checkLocalTxInput_foreign_registry_then_chain
             Fixtures.bundledChain Fixtures.dotLocation "100" "statemine"
             Fixtures.kusamaRegistry false).
    reflexivity.
  - apply (checkLocalTxInput_foreign_registry_then_chain
             Fixtures.liveOnlyChain Fixtures.dotLocation "100" "statemine"
             Fixtures.kusamaRegistry false); reflexivity.
  - apply (checkLocalTxInput_foreign_registry_then_chain
             Fixtures.emptyChain Fixtures.dotLocation "100" "statemine"
             Fixtures.kusamaRegistry false); reflexivity.
Defined.

(** ** Native tokens *)

(** C9.  On a call that is neither foreign nor liquid, with one asset id
    that equals a native token of the chain once both are lower-cased, the
    result is [Balances]; the only call made is the synchronous lookup of
    the chain id, so neither the symbol resolution nor the live chain is
    reached, and the assets table plays no part (the statement holds for
    every table). *)
Theorem checkLocalTxInput_native_token_is_Balances
    (api : Api) (registry : Registry) (spec chainId : string) (info : ChainInfo)
    (assetId amount token : string) :
  api (GetChainIdBySpecName registry spec) = Returns chainId ->
  currentRelayRegistry registry !! chainId = Some info ->
  token ∈ tokens info ->
  Js.toLowerCase token = Js.toLowerCase assetId ->
  run api (checkLocalTxInput [assetId] [amount] spec registry false false)
    = ([GetChainIdBySpecName registry spec], Returns Balances)
  /\ existsb isAwaited
       (run api (checkLocalTxInput [assetId] [amount] spec registry false false)).1
     = false.
Proof.
  intros Hid Hinfo Hin Heq. enter_checkLocalTxInput.
  rewrite (run_call_returns api _ _ _ Hid). rewrite Hinfo.
  destruct (find_sameIgnoringCase_Some assetId token _ Hin Heq) as [z ->].
  split; reflexivity.
Qed.

Lemma checkLocalTxInput_native_token_is_Balances_witness :
  run Fixtures.emptyChain
      (checkLocalTxInput ["ksm"] ["1000"] "statemine" Fixtures.kusamaRegistry false false)
    = ([GetChainIdBySpecName Fixtures.kusamaRegistry "statemine"], Returns Balances).
Proof.
  apply (checkLocalTxInput_native_token_is_Balances
           Fixtures.emptyChain Fixtures.kusamaRegistry "statemine" "1000"
           Fixtures.assetHubKusama "ksm" "1000" "KSM").
  - reflexivity.
  - vm_compute. reflexivity.
  - simpl. left.
  - reflexivity.
Defined.

(** ** Liquid tokens *)

(** C10.  On a call that is not foreign but liquid, with no asset id and one
    amount, the length validation lets the input through: the body is the
    liquid-token branch, which looks the chain id up and then hands
    [assetIds[0]], which is [undefined], to the liquidity-pool validity
    check, and returns [PoolAssets] when that check returns.  The same
    lengths on the foreign-assets path are rejected with [InvalidInput]. *)
Theorem checkLocalTxInput_liquid_passes_undefined
    (registry : Registry) (spec amount : string) :
  checkLocalTxInput [] [amount] spec registry false true
    = Invoke (GetChainIdBySpecName registry spec) (fun systemChainId =>
        Invoke (CheckLiquidTokenValidity
                  (currentRelayRegistry registry !! systemChainId) None)
               (fun _ => Return PoolAssets))
  /\ (forall (api : Api) (chainId : string),
        api (GetChainIdBySpecName registry spec) = Returns chainId ->
        (run api (checkLocalTxInput [] [amount] spec registry false true)).1
          = [GetChainIdBySpecName registry spec;
             CheckLiquidTokenValidity (currentRelayRegistry registry !! chainId) None])
  /\ (forall isLiquid : bool,
        checkLocalTxInput [] [amount] spec registry true isLiquid
          = Throw invalidForeignLength)
  /\ errorKind (Throws invalidForeignLength : Completion LocalTxType) = Some InvalidInput.
Proof.
  split; [reflexivity|]. split; [|split; [reflexivity | reflexivity]].
  intros api chainId Hid.
  rewrite checkLocalTxInput_liquid_branch by (simpl; lia).
  rewrite (run_call_returns api _ _ _ Hid). cbn [fst].
  unfold call. cbn [bind run].
  destruct (api (CheckLiquidTokenValidity _ _)); reflexivity.
Qed.

Lemma checkLocalTxInput_liquid_passes_undefined_witness :
  (run Fixtures.emptyChain
       (checkLocalTxInput [] ["1000"] "statemine" Fixtures.kusamaRegistry false true)).1
    = [GetChainIdBySpecName Fixtures.kusamaRegistry "statemine";
       CheckLiquidTokenValidity
         (currentRelayRegistry Fixtures.kusamaRegistry !! "1000") None].
Proof.
  apply (checkLocalTxInput_liquid_passes_undefined
           Fixtures.kusamaRegistry "statemine" "1000").
  reflexivity.
Defined.

(** What the liquidity-pool check throws is what the caller receives. *)
Lemma checkLocalTxInput_liquid_error_unchanged
    (api : Api) (registry : Registry) (spec chainId : string)
    (assetIds : list string) (amount : string) (e : Thrown) :
  (length assetIds <= 1)%nat ->
  api (GetChainIdBySpecName registry spec) = Returns chainId ->
  api (CheckLiquidTokenValidity
         (currentRelayRegistry registry !! chainId) (assetIds !! 0%nat)) = Throws e ->
  (run api (checkLocalTxInput assetIds [amount] spec registry false true)).2 = Throws e.
Proof.
  intros Hlen Hid Hcheck.
  rewrite checkLocalTxInput_liquid_branch by exact Hlen.
  rewrite (run_call_returns api _ _ _ Hid). cbn [snd].
  rewrite (run_call_throws api _ _ _ Hcheck). reflexivity.
Qed.

(** The scenarios of the specification that concern local transfers. *)
Example scenario_empty_assetIds_is_Balances :
  run Fixtures.emptyChain
      (checkLocalTxInput [] ["1000"] "statemine" Fixtures.kusamaRegistry false false)
    = ([GetChainIdBySpecName Fixtures.kusamaRegistry "statemine"], Returns Balances).
Proof. vm_compute. reflexivity. Qed.

Example scenario_registered_symbol_is_Assets :
  run Fixtures.emptyChain
      (checkLocalTxInput ["USDT"] ["1000"] "statemine" Fixtures.kusamaRegistry false false)
    = ([GetChainIdBySpecName Fixtures.kusamaRegistry "statemine";
        GetAssetHubAssetId "USDT" "statemine" false],
       Returns Assets).
Proof. vm_compute. reflexivity. Qed.

Example scenario_registered_integer_is_Assets :
  run Fixtures.emptyChain
      (checkLocalTxInput ["1984"] ["1000"] "statemine" Fixtures.kusamaRegistry false false)
    = ([GetChainIdBySpecName Fixtures.kusamaRegistry "statemine"], Returns Assets).
Proof. vm_compute. reflexivity. Qed.

(** ** Assets that no source knows *)

(** A symbol is resolved by [getAssetHubAssetId]; whatever id comes back,
    the flag computed from the symbol still guards the live query, so the
    chain is not asked and the result is [Assets]. *)
Lemma checkLocalTxInput_symbol_skips_live_query
    (api : Api) (registry : Registry) (spec chainId : string) (info : ChainInfo)
    (assetId amount resolved : string) :
  api (GetChainIdBySpecName registry spec) = Returns chainId ->
  currentRelayRegistry registry !! chainId = Some info ->
  (forall token, token ∈ tokens info -> Js.toLowerCase token <> Js.toLowerCase assetId) ->
  Js.parseInt assetId = None ->
  api (GetAssetHubAssetId assetId spec false) = Returns resolved ->
  run api (checkLocalTxInput [assetId] [amount] spec registry false false)
    = ([GetChainIdBySpecName registry spec; GetAssetHubAssetId assetId spec false],
       Returns Assets).
Proof.
  intros Hid Hinfo Hnative Hnan Hresolved. enter_checkLocalTxInput.
  rewrite (run_call_returns api _ _ _ Hid). rewrite Hinfo.
  rewrite (find_sameIgnoringCase_None _ _ Hnative).
  rewrite Hnan. cbn [Js.isNaN negb].
  rewrite (run_call_returns api _ _ _ Hresolved).
  destruct (Js.truthyString _); reflexivity.
Qed.

(** X18.  On a call that is neither foreign nor liquid, with one asset id
    that [parseInt] reads as a number, that is no native token of the chain
    and equals no key of the registry's assets table (lower-cased), and for
    which the chain answers the existence query with none, the promise is
    rejected with the [AssetNotFound] error that names the id: the registry
    was searched, then the chain was asked, and no success value is
    returned. *)
Theorem checkLocalTxInput_integer_id_exhausted
    (api : Api) (registry : Registry) (spec chainId : string) (info : ChainInfo)
    (assetId amount : string) :
  api (GetChainIdBySpecName registry spec) = Returns chainId ->
  currentRelayRegistry registry !! chainId = Some info ->
  (forall token, token ∈ tokens info -> Js.toLowerCase token <> Js.toLowerCase assetId) ->
  Js.isNaN (Js.parseInt assetId) = false ->
  (forall key, key ∈ Object_keys (assetsInfo info) ->
               Js.toLowerCase key <> Js.toLowerCase assetId) ->
  api (QueryAssetsAsset assetId) = Returns {| isNone := true |} ->
  run api (checkLocalTxInput [assetId] [amount] spec registry false false)
    = ([GetChainIdBySpecName registry spec; QueryAssetsAsset assetId],
       Throws (integerAssetNotFound assetId))
  /\ errorKind (Throws (integerAssetNotFound assetId) : Completion LocalTxType)
     = Some AssetNotFound.
Proof.
  intros Hid Hinfo Hnative Hnum Hkeys Hnone. split; [|reflexivity].
  enter_checkLocalTxInput.
  rewrite (run_call_returns api _ _ _ Hid). rewrite Hinfo.
  rewrite (find_sameIgnoringCase_None _ _ Hnative).
  rewrite Hnum. cbn [bind negb].
  rewrite (find_sameIgnoringCase_None _ _ Hkeys). cbn [Js.truthyString].
  rewrite (run_call_returns api _ _ _ Hnone). reflexivity.
Qed.

Lemma checkLocalTxInput_integer_id_exhausted_witness :
  run Fixtures.emptyChain
      (checkLocalTxInput ["999999"] ["100"] "statemine" Fixtures.kusamaRegistry false false)
    = ([GetChainIdBySpecName Fixtures.kusamaRegistry "statemine"; QueryAssetsAsset "999999"],
       Throws (integerAssetNotFound "999999"))
  /\ errorKind (Throws (integerAssetNotFound "999999") : Completion LocalTxType)
     = Some AssetNotFound.
Proof.
  apply (checkLocalTxInput_integer_id_exhausted
           Fixtures.emptyChain Fixtures.kusamaRegistry "statemine" "1000"
           Fixtures.assetHubKusama "999999" "100").
  - reflexivity.
  - vm_compute. reflexivity.
  - intros token Hin. apply list_elem_of_In in Hin. simpl in Hin.
    destruct Hin as [<- | []]. vm_compute. discriminate.
  - reflexivity.
  - intros key Hin. apply list_elem_of_In in Hin. simpl in Hin.
    destruct Hin as [<- | [<- | []]]; vm_compute; discriminate.
  - reflexivity.
Defined.






(** On the chain that keeps the contract, a symbol of the table is still
    resolved to [Assets]. *)
Example honestChain_known_symbol_is_Assets :
  run Resolution.honestChain
      (checkLocalTxInput ["usdt"] ["100"] "statemine" Fixtures.kusamaRegistry false false)
    = ([GetChainIdBySpecName Fixtures.kusamaRegistry "statemine";
        GetAssetHubAssetId "usdt" "statemine" false],
       Returns Assets).
Proof. vm_compute. reflexivity. Qed.

(** ** The relay-to-system builder *)

Import RelayToSystem.

Lemma createAssets_resolves (amounts : list string) (xcmVersion : Z) :
  createAssets amounts xcmVersion
    = Returns (if xcmVersion =? 2 then V2 [nativeAsset (amounts !! 0%nat)]
               else V3 [nativeAsset (amounts !! 0%nat)]).
Proof. unfold createAssets. destruct (xcmVersion =? 2); reflexivity. Qed.

(** C2, as stated, fails: for two amounts the asset list has one element. *)
Lemma createAssets_two_amounts_one_asset :
  length <$> resolvedAssets (createAssets ["100"; "200"] 3) = Some 1%nat
  /\ length ["100"; "200"] = 2%nat
  /\ length <$> resolvedAssets (createAssets [] 2) = Some 1%nat.
Proof. repeat split; reflexivity. Qed.

(** C2, amended.  For every list of amounts and every version, the promise
    of [createAssets] resolves to a list of exactly one fungible asset
    descriptor, whose amount is [amounts[0]] ([undefined] when [amounts] is
    empty) and whose concrete location is [Here] with [parents] 0; the list
    is as long as [amounts] exactly when [amounts] has one element. *)
Theorem createAssets_one_native_asset (amounts : list string) (xcmVersion : Z) :
  resolvedAssets (createAssets amounts xcmVersion) = Some [nativeAsset (amounts !! 0%nat)]
  /\ fun_ (nativeAsset (amounts !! 0%nat)) = Fungible (amounts !! 0%nat)
  /\ id (nativeAsset (amounts !! 0%nat))
     = Concrete {| parents := 0; interior := Here "" |}
  /\ (length <$> resolvedAssets (createAssets amounts xcmVersion) = Some (length amounts)
      <-> length amounts = 1%nat).
Proof.
  rewrite createAssets_resolves.
  assert (Hres : resolvedAssets
                   (Returns (if xcmVersion =? 2 then V2 [nativeAsset (amounts !! 0%nat)]
                             else V3 [nativeAsset (amounts !! 0%nat)]))
                 = Some [nativeAsset (amounts !! 0%nat)])
    by (destruct (xcmVersion =? 2); reflexivity).
  rewrite Hres. repeat split; cbn; intros H; congruence.
Qed.

(** C3, as stated, fails: asked for version 4, whose tag is [V4], each of
    the three builders answers with the tag [V3]. *)
Lemma builders_version_4_tagged_V3 :
  requestedTag 4 = Some XcmV4
  /\ fragmentTags "5FHneW46xGXgs5mUiveU4sbTyGBzmstUspZC92UhjJM694ty" "1000" ["100"] 4
     = [Some XcmV3; Some XcmV3; Some XcmV3].
Proof. split; reflexivity. Qed.

(** C3, amended.  The outputs of [createBeneficiary], [createDest] and
    [createAssets] are tagged [V2] when the requested version is 2 and [V3]
    for every other version: for 2 and 3 that is the requested tag, for 4
    it is [V3], the builder having no [V4] representation. *)
Theorem builders_tag_V2_for_2_else_V3
    (accountId destId : string) (amounts : list string) (xcmVersion : Z) :
  fragmentTags accountId destId amounts xcmVersion
    = (if xcmVersion =? 2 then [Some XcmV2; Some XcmV2; Some XcmV2]
       else [Some XcmV3; Some XcmV3; Some XcmV3])
  /\ fragmentTags accountId destId amounts 2
     = [requestedTag 2; requestedTag 2; requestedTag 2]
  /\ fragmentTags accountId destId amounts 3
     = [requestedTag 3; requestedTag 3; requestedTag 3]
  /\ fragmentTags accountId destId amounts 4 = [Some XcmV3; Some XcmV3; Some XcmV3].
Proof.
  split; [|repeat split; reflexivity].
  unfold fragmentTags, createBeneficiary, createDest, createAssets.
  destruct (xcmVersion =? 2); reflexivity.
Qed.

(** C6.  For every version the outputs of [createBeneficiary], [createDest]
    and [createAssets] carry one and the same version tag. *)
Theorem builders_share_one_tag
    (accountId destId : string) (amounts : list string) (xcmVersion : Z) :
  versionTag (createBeneficiary accountId xcmVersion)
    = versionTag (createDest destId xcmVersion)
  /\ resolvedTag (createAssets amounts xcmVersion)
     = Some (versionTag (createBeneficiary accountId xcmVersion))
  /\ resolvedTag (createAssets amounts xcmVersion)
     = Some (versionTag (createDest destId xcmVersion)).
Proof.
  unfold createBeneficiary, createDest, createAssets.
  destruct (xcmVersion =? 2); repeat split; reflexivity.
Qed.

(** C4.  For every account, the version 2 beneficiary is a [V2] location
    whose [X1] [AccountId32] junction has [network] equal to [Any], the
    version 3 beneficiary is a [V3] location whose [AccountId32] junction
    has no [network]; the two locations agree on [parents] and on the
    account id, and removing [network] from the first yields the second, so
    that field is their only difference. *)
Theorem createBeneficiary_V2_V3_differ_in_network (accountId : string) :
  createBeneficiary accountId 2
    = V2 {| parents := 0; interior := X1 (AccountId32 (Some "Any") accountId) |}
  /\ createBeneficiary accountId 3
     = V3 {| parents := 0; interior := X1 (AccountId32 None accountId) |}
  /\ parents (payloadOf (createBeneficiary accountId 2))
     = parents (payloadOf (createBeneficiary accountId 3))
  /\ withoutNetwork (payloadOf (createBeneficiary accountId 2))
     = payloadOf (createBeneficiary accountId 3)
  /\ withoutNetwork (payloadOf (createBeneficiary accountId 3))
     = payloadOf (createBeneficiary accountId 3)
  /\ payloadOf (createBeneficiary accountId 2) <> payloadOf (createBeneficiary accountId 3).
Proof.
  repeat split. cbn. intros Heq. discriminate Heq.
Qed.

(** C5, as stated, fails: with [isLimited] set and both components
    supplied, a component that is the number 0 (or the empty string) makes
    the result [Unlimited]. *)
Lemma createWeightLimit_zero_component_Unlimited :
  createWeightLimit
    {| isLimited := Some true;
       weightLimit := Some {| refTime := Some (WNumber 0);
                              proofSize := Some (WNumber 1000) |} |} = Unlimited
  /\ createWeightLimit
       {| isLimited := Some true;
          weightLimit := Some {| refTime := Some (WString "1000");
                                 proofSize := Some (WString "") |} |} = Unlimited.
Proof. split; reflexivity. Qed.

(** C5, amended.  [createWeightLimit] returns [Limited] with the two
    components if and only if [isLimited] is true and both components are
    supplied with truthy values (a number other than 0, a string other than
    the empty one); whenever [isLimited] is set and a component is missing
    the result is [Unlimited].  The function has no failing case. *)
Theorem createWeightLimit_Limited_iff (opts : CreateWeightLimitOpts) :
  (forall r p : WeightComponent,
     createWeightLimit opts = Limited r p
     <-> isLimited opts = Some true
         /\ optRefTime opts = Some r /\ truthy r = true
         /\ optProofSize opts = Some p /\ truthy p = true)
  /\ (optRefTime opts = None \/ optProofSize opts = None ->
      createWeightLimit opts = Unlimited)
  /\ (createWeightLimit opts = Unlimited \/
      exists r p, createWeightLimit opts = Limited r p).
Proof.
  unfold createWeightLimit.
  destruct (isLimited opts) as [[|]|];
    destruct (optRefTime opts) as [r0|]; destruct (optProofSize opts) as [p0|];
    try destruct (truthy r0) eqn:Hr; try destruct (truthy p0) eqn:Hp; cbn [andb];
    (split; [intros r p; split;
              [ intros H; try discriminate H; injection H as <- <-; auto
              | intros (Hl & Hr' & Htr & Hp' & Htp); try discriminate;
                try (injection Hr' as <-); try (injection Hp' as <-); congruence ]
            | split; [intros [H|H]; try discriminate H; reflexivity
                     | first [left; reflexivity | right; eauto]]]).
Qed.

Lemma createWeightLimit_Limited_iff_witness :
  createWeightLimit
    {| isLimited := Some true;
       weightLimit := Some {| refTime := Some (WNumber 100); proofSize := None |} |}
    = Unlimited
  /\ createWeightLimit
       {| isLimited := Some true;
          weightLimit := Some {| refTime := Some (WNumber 100);
                                 proofSize := Some (WNumber 2000) |} |}
     = Limited (WNumber 100) (WNumber 2000).
Proof.
  split.
  - apply (createWeightLimit_Limited_iff
             {| isLimited := Some true;
                weightLimit := Some {| refTime := Some (WNumber 100); proofSize := None |} |}).
    right. reflexivity.
  - apply (createWeightLimit_Limited_iff
             {| isLimited := Some true;
                weightLimit := Some {| refTime := Some (WNumber 100);
                                       proofSize := Some (WNumber 2000) |} |}).
    repeat split.
Defined.

(** * Further properties of the code *)

(** ** [checkLocalTxInput], branch by branch *)

Ltac split_lengths assetIds amounts :=
  destruct assetIds as [|?a [|?b ?rest]]; destruct amounts as [|?x [|?y ?rest']].

Ltac reduce_run :=
  cbn -[lookup find Js.parseInt Js.sameIgnoringCase String.append Object_keys last].

Ltac branch api :=
  match goal with
  | |- context [match api ?c with _ => _ end] => destruct (api c) eqn:?
  | |- context [match ?t with Some _ => _ | None => _ end] => destruct t eqn:?
  | |- context [if ?b then _ else _] => destruct b eqn:?
  end.

(** Every path of the body against [api]: one goal per combination of
    answers. *)
Ltac explore api := reduce_run; repeat (branch api; reduce_run).

(** X1.  With no asset id and one amount, on a call that is neither foreign
    nor liquid, the result is [Balances] as soon as the chain id lookup
    returns: the registry record of the chain is not read, so the chain may
    even be missing from the registry. *)
Theorem checkLocalTxInput_no_assetIds_is_Balances
    (api : Api) (registry : Registry) (spec chainId amount : string) :
  api (GetChainIdBySpecName registry spec) = Returns chainId ->
  run api (checkLocalTxInput [] [amount] spec registry false false)
    = ([GetChainIdBySpecName registry spec], Returns Balances).
Proof.
  intros Hid. enter_checkLocalTxInput.
  rewrite (run_call_returns api _ _ _ Hid). reflexivity.
Qed.

Lemma checkLocalTxInput_no_assetIds_is_Balances_witness :
  currentRelayRegistry Fixtures.kusamaRegistry !! "" = None
  /\ run Scenarios.strayChain
       (checkLocalTxInput [] ["1000"] "westmint" Fixtures.kusamaRegistry false false)
     = ([GetChainIdBySpecName Fixtures.kusamaRegistry "westmint"], Returns Balances).
Proof.
  split; [vm_compute; reflexivity|].
  apply (checkLocalTxInput_no_assetIds_is_Balances
           Scenarios.strayChain Fixtures.kusamaRegistry "westmint" "" "1000").
  reflexivity.
Defined.

(** X2.  With one asset id, on a call that is neither foreign nor liquid,
    a chain id that the registry has no record of ends the check with the
    run-time's [TypeError] (the read of [tokens] on [undefined]), which is
    none of the library's error kinds; nothing was asked but the chain id. *)
Theorem checkLocalTxInput_unknown_chain_TypeError
    (api : Api) (registry : Registry) (spec chainId assetId amount : string) :
  api (GetChainIdBySpecName registry spec) = Returns chainId ->
  currentRelayRegistry registry !! chainId = None ->
  run api (checkLocalTxInput [assetId] [amount] spec registry false false)
    = ([GetChainIdBySpecName registry spec],
       Throws (TypeError "Cannot read properties of undefined (reading 'tokens')"))
  /\ errorKind (run api (checkLocalTxInput [assetId] [amount] spec registry false false)).2
     = None.
Proof.
  intros Hid Hinfo. enter_checkLocalTxInput.
  rewrite (run_call_returns api _ _ _ Hid). rewrite Hinfo. split; reflexivity.
Qed.

Lemma checkLocalTxInput_unknown_chain_TypeError_witness :
  run Scenarios.strayChain
      (checkLocalTxInput ["1984"] ["1000"] "westmint" Fixtures.kusamaRegistry false false)
    = ([GetChainIdBySpecName Fixtures.kusamaRegistry "westmint"],
       Throws (TypeError "Cannot read properties of undefined (reading 'tokens')")).
Proof.
  apply (checkLocalTxInput_unknown_chain_TypeError
           Scenarios.strayChain Fixtures.kusamaRegistry "westmint" "" "1984" "1000").
  - reflexivity.
  - vm_compute. reflexivity.
Defined.

Lemma toLowerCase_empty (s : string) : Js.toLowerCase s = "" -> s = "".
Proof. destruct s; [reflexivity | discriminate]. Qed.

Lemma parseInt_empty : Js.parseInt "" = None.
Proof. reflexivity. Qed.

(** X3.  An asset id that [parseInt] reads as a number, that is no native
    token and that equals a key of the registry's assets table once both are
    lower-cased, gives [Assets] from the registry alone: nothing is awaited,
    the chain is not asked. *)
Theorem checkLocalTxInput_registered_integer_is_Assets
    (api : Api) (registry : Registry) (spec chainId : string) (info : ChainInfo)
    (assetId amount key : string) :
  api (GetChainIdBySpecName registry spec) = Returns chainId ->
  currentRelayRegistry registry !! chainId = Some info ->
  (forall token, token ∈ tokens info -> Js.toLowerCase token <> Js.toLowerCase assetId) ->
  Js.isNaN (Js.parseInt assetId) = false ->
  key ∈ Object_keys (assetsInfo info) ->
  Js.toLowerCase key = Js.toLowerCase assetId ->
  run api (checkLocalTxInput [assetId] [amount] spec registry false false)
    = ([GetChainIdBySpecName registry spec], Returns Assets).
Proof.
  intros Hid Hinfo Hnative Hnum Hin Heq. enter_checkLocalTxInput.
  rewrite (run_call_returns api _ _ _ Hid). rewrite Hinfo.
  rewrite (find_sameIgnoringCase_None _ _ Hnative).
  rewrite Hnum. cbn [bind negb].
  destruct (find_sameIgnoringCase_Some assetId key _ Hin Heq) as [z Hz].
  rewrite Hz.
  assert (Hz' : Js.truthyString (Some z) = true).
  { cbn [Js.truthyString]. apply negb_true_iff.
    destruct (String.eqb_spec z "") as [->|]; [|reflexivity].
    apply find_some in Hz as [_ Hsame]. unfold Js.sameIgnoringCase in Hsame.
    apply String.eqb_eq in Hsame. cbn [Js.toLowerCase] in Hsame.
    symmetry in Hsame. apply toLowerCase_empty in Hsame. subst assetId.
    rewrite parseInt_empty in Hnum. discriminate Hnum. }
  rewrite Hz'. reflexivity.
Qed.

Lemma checkLocalTxInput_registered_integer_is_Assets_witness :
  run Fixtures.emptyChain
      (checkLocalTxInput ["1984"] ["1000"] "statemine" Fixtures.kusamaRegistry false false)
    = ([GetChainIdBySpecName Fixtures.kusamaRegistry "statemine"], Returns Assets).
Proof.
  apply (checkLocalTxInput_registered_integer_is_Assets
           Fixtures.emptyChain Fixtures.kusamaRegistry "statemine" "1000"
           Fixtures.assetHubKusama "1984" "1000" "1984").
  - reflexivity.
  - vm_compute. reflexivity.
  - intros token Hin. apply list_elem_of_In in Hin. simpl in Hin.
    destruct Hin as [<- | []]. vm_compute. discriminate.
  - reflexivity.
  - simpl. right. left.
  - reflexivity.
Defined.

(** X4.  An asset id that [parseInt] reads as a number, that is no native
    token and matches no key of the registry's assets table, gives [Assets]
    when the chain answers the existence query with some asset: the live
    chain makes up for a registry that is out of date. *)
Theorem checkLocalTxInput_integer_on_chain_is_Assets
    (api : Api) (registry : Registry) (spec chainId : string) (info : ChainInfo)
    (assetId amount : string) :
  api (GetChainIdBySpecName registry spec) = Returns chainId ->
  currentRelayRegistry registry !! chainId = Some info ->
  (forall token, token ∈ tokens info -> Js.toLowerCase token <> Js.toLowerCase assetId) ->
  Js.isNaN (Js.parseInt assetId) = false ->
  (forall key, key ∈ Object_keys (assetsInfo info) ->
               Js.toLowerCase key <> Js.toLowerCase assetId) ->
  api (QueryAssetsAsset assetId) = Returns {| isNone := false |} ->
  run api (checkLocalTxInput [assetId] [amount] spec registry false false)
    = ([GetChainIdBySpecName registry spec; QueryAssetsAsset assetId], Returns Assets).
Proof.
  intros Hid Hinfo Hnative Hnum Hkeys Hsome. enter_checkLocalTxInput.
  rewrite (run_call_returns api _ _ _ Hid). rewrite Hinfo.
  rewrite (find_sameIgnoringCase_None _ _ Hnative).
  rewrite Hnum. cbn [bind negb].
  rewrite (find_sameIgnoringCase_None _ _ Hkeys). cbn [Js.truthyString].
  rewrite (run_call_returns api _ _ _ Hsome). reflexivity.
Qed.

Lemma checkLocalTxInput_integer_on_chain_is_Assets_witness :
  run Scenarios.fundedChain
      (checkLocalTxInput ["999999"] ["100"] "statemine" Fixtures.kusamaRegistry false false)
    = ([GetChainIdBySpecName Fixtures.kusamaRegistry "statemine"; QueryAssetsAsset "999999"],
       Returns Assets).
Proof.
  apply (checkLocalTxInput_integer_on_chain_is_Assets
           Scenarios.fundedChain Fixtures.kusamaRegistry "statemine" "1000"
           Fixtures.assetHubKusama "999999" "100").
  - reflexivity.
  - vm_compute. reflexivity.
  - intros token Hin. apply list_elem_of_In in Hin. simpl in Hin.
    destruct Hin as [<- | []]. vm_compute. discriminate.
  - reflexivity.
  - intros key Hin. apply list_elem_of_In in Hin. simpl in Hin.
    destruct Hin as [<- | [<- | []]]; vm_compute; discriminate.
  - reflexivity.
Defined.

(** X5.  An asset id that [parseInt] does not read as a number and that is
    no native token is left to [getAssetHubAssetId]: when it returns an id,
    the result is [Assets] whether or not the registry lists that id, and
    the existence query is never put to the chain; when it throws, the
    promise is rejected with what it threw. *)
Theorem checkLocalTxInput_symbol_trusts_resolution
    (api : Api) (registry : Registry) (spec chainId : string) (info : ChainInfo)
    (assetId amount : string) :
  api (GetChainIdBySpecName registry spec) = Returns chainId ->
  currentRelayRegistry registry !! chainId = Some info ->
  (forall token, token ∈ tokens info -> Js.toLowerCase token <> Js.toLowerCase assetId) ->
  Js.isNaN (Js.parseInt assetId) = true ->
  (forall resolved,
     api (GetAssetHubAssetId assetId spec false) = Returns resolved ->
     run api (checkLocalTxInput [assetId] [amount] spec registry false false)
       = ([GetChainIdBySpecName registry spec; GetAssetHubAssetId assetId spec false],
          Returns Assets))
  /\ (forall e,
        api (GetAssetHubAssetId assetId spec false) = Throws e ->
        run api (checkLocalTxInput [assetId] [amount] spec registry false false)
          = ([GetChainIdBySpecName registry spec; GetAssetHubAssetId assetId spec false],
             Throws e)).
Proof.
  intros Hid Hinfo Hnative Hnan.
  split; [intros resolved Hres | intros e Hthrow]; enter_checkLocalTxInput;
    rewrite (run_call_returns api _ _ _ Hid); rewrite Hinfo;
    rewrite (find_sameIgnoringCase_None _ _ Hnative); rewrite Hnan; cbn [negb].
  - rewrite (run_call_returns api _ _ _ Hres).
    destruct (Js.truthyString _); reflexivity.
  - rewrite (run_call_throws api _ _ _ Hthrow). reflexivity.
Qed.

Lemma checkLocalTxInput_symbol_trusts_resolution_witness :
  run Fixtures.emptyChain
      (checkLocalTxInput ["USDC"] ["100"] "statemine" Fixtures.kusamaRegistry false false)
    = ([GetChainIdBySpecName Fixtures.kusamaRegistry "statemine";
        GetAssetHubAssetId "USDC" "statemine" false],
       Returns Assets)
  /\ run Scenarios.deafChain
       (checkLocalTxInput ["DOTTY"] ["100"] "statemine" Fixtures.kusamaRegistry false false)
     = ([GetChainIdBySpecName Fixtures.kusamaRegistry "statemine";
         GetAssetHubAssetId "DOTTY" "statemine" false],
        Throws Scenarios.unknownSymbol).
Proof.
  split.
  - apply (checkLocalTxInput_symbol_trusts_resolution
             Fixtures.emptyChain Fixtures.kusamaRegistry "statemine" "1000"
             Fixtures.assetHubKusama "USDC" "100") with (resolved := "1337").
    + reflexivity.
    + vm_compute. reflexivity.
    + intros token Hin. apply list_elem_of_In in Hin. simpl in Hin.
      destruct Hin as [<- | []]. vm_compute. discriminate.
    + reflexivity.
    + reflexivity.
  - apply (checkLocalTxInput_symbol_trusts_resolution
             Scenarios.deafChain Fixtures.kusamaRegistry "statemine" "1000"
             Fixtures.assetHubKusama "DOTTY" "100").
    + reflexivity.
    + vm_compute. reflexivity.
    + intros token Hin. apply list_elem_of_In in Hin. simpl in Hin.
      destruct Hin as [<- | []]. vm_compute. discriminate.
    + reflexivity.
    + reflexivity.
Defined.

(** ** [checkLocalTxInput] over all inputs and all collaborators *)

(** X6.  Whenever the promise of [checkLocalTxInput] is rejected, the error
    is one of three sorts: what the last call made threw, handed on
    unchanged; one of the two [InvalidInput] errors, raised before any call;
    one of the two [AssetNotFound] errors about the one asset id given,
    raised only after something was awaited; or the [TypeError] of a
    missing chain record, on the path that is neither foreign nor liquid. *)
Theorem checkLocalTxInput_rejection_origin
    (api : Api) (assetIds amounts : list string) (spec : string) (registry : Registry)
    (isForeign isLiquid : bool) (trace : list Call) (e : Thrown) :
  run api (checkLocalTxInput assetIds amounts spec registry isForeign isLiquid)
    = (trace, Throws e) ->
  (exists c : Call, last trace = Some c /\ api c = Throws e)
  \/ (trace = [] /\ (e = invalidLengths \/ e = invalidForeignLength))
  \/ (exists a, assetIds = [a]
                /\ (e = multiLocationNotFound a \/ e = integerAssetNotFound a)
                /\ existsb isAwaited trace = true)
  \/ (e = TypeError "Cannot read properties of undefined (reading 'tokens')"
      /\ isForeign = false /\ isLiquid = false).
Proof.
  split_lengths assetIds amounts; destruct isForeign, isLiquid;
    enter_checkLocalTxInput; unfold call; explore api;
    intros [= <- <-];
    first
      [ left; eexists; split; [reflexivity | eassumption]
      | right; left; split; [reflexivity|]; first [left; reflexivity | right; reflexivity]
      | right; right; left; eexists; split; [reflexivity|];
        split; [first [left; reflexivity | right; reflexivity] | reflexivity]
      | right; right; right; repeat split ].
Qed.

Lemma checkLocalTxInput_rejection_origin_witness :
  (exists c : Call,
      last [GetChainIdBySpecName Fixtures.kusamaRegistry "statemine";
            GetAssetHubAssetId "DOTTY" "statemine" false] = Some c
      /\ Scenarios.deafChain c = Throws Scenarios.unknownSymbol)
  \/ ([GetChainIdBySpecName Fixtures.kusamaRegistry "statemine";
       GetAssetHubAssetId "DOTTY" "statemine" false] = []
      /\ (Scenarios.unknownSymbol = invalidLengths
          \/ Scenarios.unknownSymbol = invalidForeignLength))
  \/ (exists a, ["DOTTY"] = [a]
                /\ (Scenarios.unknownSymbol = multiLocationNotFound a
                    \/ Scenarios.unknownSymbol = integerAssetNotFound a)
                /\ existsb isAwaited
                     [GetChainIdBySpecName Fixtures.kusamaRegistry "statemine";
                      GetAssetHubAssetId "DOTTY" "statemine" false] = true)
  \/ (Scenarios.unknownSymbol
        = TypeError "Cannot read properties of undefined (reading 'tokens')"
      /\ false = false /\ false = false).
Proof.
  apply (checkLocalTxInput_rejection_origin
           Scenarios.deafChain ["DOTTY"] ["100"] "statemine" Fixtures.kusamaRegistry
           false false).
  vm_compute. reflexivity.
Defined.

(** X7.  Whenever the promise of [checkLocalTxInput] is resolved, there was
    exactly one amount and the value follows the flags: [ForeignAssets] on a
    foreign call, which then had exactly one asset id; [PoolAssets] on a
    liquid call that is not foreign; [Balances] or [Assets] otherwise, and
    [Balances] when no asset id was given. *)
Theorem checkLocalTxInput_result_by_flags
    (api : Api) (assetIds amounts : list string) (spec : string) (registry : Registry)
    (isForeign isLiquid : bool) (trace : list Call) (t : LocalTxType) :
  run api (checkLocalTxInput assetIds amounts spec registry isForeign isLiquid)
    = (trace, Returns t) ->
  length amounts = 1%nat
  /\ (length assetIds <= 1)%nat
  /\ (isForeign = true -> t = ForeignAssets /\ length assetIds = 1%nat)
  /\ (isForeign = false -> isLiquid = true -> t = PoolAssets)
  /\ (isForeign = false -> isLiquid = false ->
      (t = Balances \/ t = Assets) /\ (assetIds = [] -> t = Balances)).
Proof.
  split_lengths assetIds amounts; destruct isForeign, isLiquid;
    enter_checkLocalTxInput; unfold call; explore api;
    intros [= <- <-];
    repeat split; intros; try discriminate; try (cbn; lia); try reflexivity;
    first [left; reflexivity | right; reflexivity].
Qed.

Lemma checkLocalTxInput_result_by_flags_witness :
  length ["100"] = 1%nat
  /\ (length [Fixtures.dotLocation] <= 1)%nat
  /\ (true = true -> ForeignAssets = ForeignAssets /\ length [Fixtures.dotLocation] = 1%nat)
  /\ (true = false -> true = true -> ForeignAssets = PoolAssets)
  /\ (true = false -> true = false ->
      (ForeignAssets = Balances \/ ForeignAssets = Assets)
      /\ ([Fixtures.dotLocation] = [] -> ForeignAssets = Balances)).
Proof.
  apply (checkLocalTxInput_result_by_flags
           Fixtures.liveOnlyChain [Fixtures.dotLocation] ["100"] "statemine"
           Fixtures.kusamaRegistry true true
           [ForeignAssetMultiLocationIsInRegistry Fixtures.dotLocation Fixtures.kusamaRegistry;
            ForeignAssetsMultiLocationExists Fixtures.dotLocation]).
  vm_compute. reflexivity.
Defined.

(** X8.  One run of [checkLocalTxInput] makes at most two calls, and awaits
    at most one of them, whatever the inputs and whatever the collaborators
    answer. *)
Theorem checkLocalTxInput_call_budget
    (api : Api) (assetIds amounts : list string) (spec : string) (registry : Registry)
    (isForeign isLiquid : bool) :
  (length (run api (checkLocalTxInput assetIds amounts spec registry isForeign isLiquid)).1
     <= 2)%nat
  /\ (length (List.filter isAwaited
        (run api (checkLocalTxInput assetIds amounts spec registry isForeign isLiquid)).1)
      <= 1)%nat.
Proof.
  split_lengths assetIds amounts; destruct isForeign, isLiquid;
    enter_checkLocalTxInput; unfold call; explore api; split; lia.
Qed.

(** X9.  [checkLocalTxInput] never reads the amounts, only how many there
    are; and on a foreign call it reads neither the spec name nor the
    liquid-token flag: changing them leaves the whole body unchanged. *)
Theorem checkLocalTxInput_unread_inputs
    (assetIds amounts amounts' : list string) (spec spec' : string) (registry : Registry)
    (isForeign isLiquid isLiquid' : bool) :
  length amounts = length amounts' ->
  checkLocalTxInput assetIds amounts spec registry isForeign isLiquid
    = checkLocalTxInput assetIds amounts' spec registry isForeign isLiquid
  /\ checkLocalTxInput assetIds amounts spec registry true isLiquid
     = checkLocalTxInput assetIds amounts' spec' registry true isLiquid'.
Proof.
  intros Hlen. unfold checkLocalTxInput. rewrite Hlen.
  split; [reflexivity|].
  destruct ((1 <? length assetIds)%nat || negb (length amounts' =? 1)%nat); reflexivity.
Qed.

Lemma checkLocalTxInput_unread_inputs_witness :
  checkLocalTxInput [Fixtures.dotLocation] ["100"] "statemine" Fixtures.kusamaRegistry false true
    = checkLocalTxInput [Fixtures.dotLocation] ["not a number"] "statemine"
        Fixtures.kusamaRegistry false true
  /\ checkLocalTxInput [Fixtures.dotLocation] ["100"] "statemine" Fixtures.kusamaRegistry true true
     = checkLocalTxInput [Fixtures.dotLocation] ["not a number"] "westmint"
         Fixtures.kusamaRegistry true false.
Proof.
  apply (checkLocalTxInput_unread_inputs
           [Fixtures.dotLocation] ["100"] ["not a number"] "statemine" "westmint"
           Fixtures.kusamaRegistry false true false).
  reflexivity.
Defined.

(** ** Which asset ids count as numbers *)

Lemma parseDigits_started (radix : Z) (s : string) (acc : Z) :
  is_Some (Js.parseDigits radix s (Some acc)).
Proof.
  revert acc. induction s as [|c s IH]; intros acc; cbn [Js.parseDigits]; [eauto|].
  destruct (Js.digitValue c) as [d|]; [|eauto].
  destruct (d <? radix); [apply IH | eauto].
Qed.

Lemma parseInt_leading_digit (c : ascii) (rest : string) :
  (49 <= nat_of_ascii c <= 57)%nat ->
  Js.isNaN (Js.parseInt (String c rest)) = false.
Proof.
  destruct c as [[] [] [] [] [] [] [] []]; intros Hc; vm_compute in Hc;
    try (exfalso; lia);
    lazy -[Js.parseDigits Z.mul Js.digitValue Z.ltb default];
    cbn [Js.parseDigits];
    match goal with
    | |- context [Js.digitValue ?c] =>
        let v := eval vm_compute in (Js.digitValue c) in
        change (Js.digitValue c) with v
    end;
    cbn -[Js.parseDigits Z.mul];
    match goal with
    | |- context [Js.parseDigits ?r rest (Some ?a)] =>
        destruct (parseDigits_started r rest a) as [v ->]
    end; reflexivity.
Qed.

(** X10.  An asset id that begins with a digit from 1 to 9 counts as a
    number, whatever follows the digit: it is never handed to
    [getAssetHubAssetId] for symbol resolution, on any path and whatever the
    collaborators answer. *)
Theorem checkLocalTxInput_leading_digit_never_resolved
    (api : Api) (c : ascii) (rest : string) (amounts : list string) (spec : string)
    (registry : Registry) (isForeign isLiquid : bool) :
  (49 <= nat_of_ascii c <= 57)%nat ->
  Js.isNaN (Js.parseInt (String c rest)) = false
  /\ forall a s b,
       GetAssetHubAssetId a s b ∉
         (run api (checkLocalTxInput [String c rest] amounts spec registry
                     isForeign isLiquid)).1.
Proof.
  intros Hc. pose proof (parseInt_leading_digit c rest Hc) as Hnum.
  split; [exact Hnum|]. intros a s b.
  destruct amounts as [|x [|y more]]; destruct isForeign, isLiquid;
    enter_checkLocalTxInput; rewrite ?Hnum; unfold call; explore api;
    intros Hin;
    repeat (apply elem_of_cons in Hin as [Hin|Hin]; [discriminate Hin|]);
    apply elem_of_nil in Hin; exact Hin.
Qed.

Lemma checkLocalTxInput_leading_digit_never_resolved_witness :
  Js.isNaN (Js.parseInt "1984abc") = false
  /\ forall a s b,
       GetAssetHubAssetId a s b ∉
         (run Fixtures.emptyChain
            (checkLocalTxInput ["1984abc"] ["100"] "statemine" Fixtures.kusamaRegistry
               false false)).1.
Proof.
  apply (checkLocalTxInput_leading_digit_never_resolved
           Fixtures.emptyChain "1" "984abc" ["100"] "statemine" Fixtures.kusamaRegistry
           false false).
  vm_compute. split; repeat constructor.
Defined.

(** ** The relay-to-system builder, beyond the version tags *)

Lemma eqb_2_cases (v : Z) : (v =? 2) = true /\ v = 2 \/ (v =? 2) = false /\ v <> 2.
Proof. destruct (Z.eqb_spec v 2); [left | right]; split; auto. Qed.

(** X11.  The index [createFeeAssetItem] resolves to always points at an
    asset of the list [createAssets] resolves to, for every list of amounts
    (the empty one included) and every version. *)
Theorem createFeeAssetItem_indexes_createAssets (amounts : list string) (xcmVersion : Z) :
  exists (i : Z) (assets : list XcmMultiAsset),
    createFeeAssetItem = Returns i
    /\ resolvedAssets (createAssets amounts xcmVersion) = Some assets
    /\ 0 <= i < Z.of_nat (length assets)
    /\ assets !! Z.to_nat i = Some (nativeAsset (amounts !! 0%nat)).
Proof.
  exists 0, [nativeAsset (amounts !! 0%nat)].
  rewrite createAssets_resolves.
  destruct (xcmVersion =? 2); repeat split; cbn; lia.
Qed.

(** X12.  Two calls of [createBeneficiary] give the same output exactly when
    they were given the same account and agree on whether the version is 2:
    the account can be read back from the output, and every version other
    than 2 is served the same location. *)
Theorem createBeneficiary_equal_iff (accountId accountId' : string) (v v' : Z) :
  createBeneficiary accountId v = createBeneficiary accountId' v'
  <-> accountId = accountId' /\ (v = 2 <-> v' = 2).
Proof.
  unfold createBeneficiary.
  destruct (eqb_2_cases v) as [[-> Hv] | [-> Hv]];
    destruct (eqb_2_cases v') as [[-> Hv'] | [-> Hv']];
    (split; [intros H; try discriminate H; injection H as <-; tauto
            | intros [<- Hiff]; first [reflexivity | tauto]]).
Qed.

(** X13.  Two calls of [createDest] give the same output exactly when they
    were given the same parachain id and agree on whether the version is 2;
    the location under the version key does not depend on the version at
    all. *)
Theorem createDest_equal_iff (destId destId' : string) (v v' : Z) :
  (createDest destId v = createDest destId' v'
   <-> destId = destId' /\ (v = 2 <-> v' = 2))
  /\ payloadOf (createDest destId v) = payloadOf (createDest destId v').
Proof.
  unfold createDest.
  destruct (eqb_2_cases v) as [[-> Hv] | [-> Hv]];
    destruct (eqb_2_cases v') as [[-> Hv'] | [-> Hv']];
    (split; [|reflexivity]);
    (split; [intros H; try discriminate H; injection H as <-; tauto
            | intros [<- Hiff]; first [reflexivity | tauto]]).
Qed.

(** X14.  [createAssets] reads the first amount only: two calls resolve to
    the same asset list exactly when their first amounts are the same (both
    missing included) and they agree on whether the version is 2.  Amounts
    after the first never show in the output. *)
Theorem createAssets_equal_iff (amounts amounts' : list string) (v v' : Z) :
  (createAssets amounts v = createAssets amounts' v'
   <-> amounts !! 0%nat = amounts' !! 0%nat /\ (v = 2 <-> v' = 2))
  /\ (forall amount others, createAssets (amount :: others) v = createAssets [amount] v).
Proof.
  split; [|intros amount others; rewrite !createAssets_resolves; reflexivity].
  rewrite !createAssets_resolves.
  destruct (eqb_2_cases v) as [[-> Hv] | [-> Hv]];
    destruct (eqb_2_cases v') as [[-> Hv'] | [-> Hv']];
    (split; [intros H; try discriminate H; injection H as H; tauto
            | intros [Hhead Hiff]; first [rewrite Hhead; reflexivity | tauto]]).
Qed.

(** ** scripts/testNetworkSetup.ts: what the status callback logs *)

Section StatusCallback.
Import TestNetworkSetup.
Variable findMetaError : Z -> Z -> Outcome MetaError.

Lemma forEach_app {A : Type} (f : A -> Outcome (list string)) (l1 l2 : list A) :
  forEach f (l1 ++ l2) =
  match forEach f l1 with
  | (lines, Done _) => ((lines ++ (forEach f l2).1)%list, (forEach f l2).2)
  | (lines, Raised e) => (lines, Raised e)
  end.
Proof.
  induction l1 as [|x l1 IH]; cbn [forEach app].
  - destruct (forEach f l2) as [lines o]. reflexivity.
  - destruct (f x) as [lines|e]; [|reflexivity].
    rewrite IH. destruct (forEach f l1) as [more [[]|e]]; cbn [fst snd].
    + destruct (forEach f l2) as [more2 o2]. cbn [fst snd].
      rewrite app_assoc. reflexivity.
    + reflexivity.
Qed.

Lemma reportFailure_one_line (ev : EventRecord) :
  isExtrinsicFailed ev = true -> decodable findMetaError ev ->
  exists line, reportFailure findMetaError ev = Done [line].
Proof.
  destruct ev as [[index error|shown]|s m]; cbn; intros Hfailed Hdec;
    [destruct Hdec as [decoded ->]; eauto | eauto | discriminate].
Qed.

Lemma reportFailure_at_most_one_line (ev : EventRecord) (lines : list string) :
  reportFailure findMetaError ev = Done lines -> (length lines <= 1)%nat.
Proof.
  destruct ev as [[index error|shown]|s m]; cbn.
  - destruct (findMetaError index error); intros [= <-]; cbn; lia.
  - intros [= <-]. cbn. lia.
  - intros [= <-]. cbn. lia.
Qed.

Lemma forEach_line_bound (l : list EventRecord) :
  (length (forEach (reportFailure findMetaError) l).1 <= length l)%nat.
Proof.
  induction l as [|ev l IH]; cbn [forEach]; [cbn; lia|].
  destruct (reportFailure findMetaError ev) as [lines|e] eqn:Hev; [|cbn; lia].
  apply reportFailure_at_most_one_line in Hev.
  destruct (forEach (reportFailure findMetaError) l) as [more o].
  cbn [fst length] in *. rewrite length_app. lia.
Qed.

Lemma forEach_all_decodable (l : list EventRecord) :
  Forall (fun ev => isExtrinsicFailed ev = true) l -> Forall (decodable findMetaError) l ->
  (forEach (reportFailure findMetaError) l).2 = Done ()
  /\ length (forEach (reportFailure findMetaError) l).1 = length l.
Proof.
  induction l as [|ev l IH]; intros Hfailed Hdec; cbn [forEach]; [split; reflexivity|].
  apply Forall_cons in Hfailed as [Hev Hfailed]. apply Forall_cons in Hdec as [Hd Hdec].
  destruct (reportFailure_one_line ev Hev Hd) as [line ->].
  destruct (IH Hfailed Hdec) as [Ho Hlen].
  destruct (forEach (reportFailure findMetaError) l) as [more o].
  cbn [fst snd length app] in *. split; [exact Ho | lia].
Qed.

Lemma filter_failed_Forall (events : list EventRecord) :
  Forall (fun ev => isExtrinsicFailed ev = true) (List.filter isExtrinsicFailed events).
Proof.
  apply Forall_forall. intros ev Hin. apply list_elem_of_In, filter_In in Hin. tauto.
Qed.

Lemma filter_decodable (events : list EventRecord) :
  Forall (decodable findMetaError) events ->
  Forall (decodable findMetaError) (List.filter isExtrinsicFailed events).
Proof.
  rewrite !Forall_forall. intros Hall ev Hin.
  apply Hall. apply list_elem_of_In. apply list_elem_of_In, filter_In in Hin. tauto.
Qed.

(** X15.  The callback logs at most one line per [ExtrinsicFailed] event of
    the block, and nothing at all, completing normally, while the status is
    neither in block nor finalized; events of any other kind never add a
    line.  This holds whatever the metadata lookup does. *)
Theorem onStatus_line_bound (status : ExtrinsicStatus) (events : list EventRecord) :
  (length (onStatus findMetaError status events).1
     <= length (List.filter isExtrinsicFailed events))%nat
  /\ (isInBlock status || isFinalized status = false ->
      onStatus findMetaError status events = ([], Done ())).
Proof.
  unfold onStatus. destruct (isInBlock status || isFinalized status).
  - split; [apply forEach_line_bound | discriminate].
  - split; [cbn; lia | reflexivity].
Qed.

Lemma onStatus_app_decodable
    (status : ExtrinsicStatus) (events later : list EventRecord) :
  isInBlock status || isFinalized status = true ->
  Forall (decodable findMetaError) events ->
  onStatus findMetaError status (events ++ later)
  = (((onStatus findMetaError status events).1
       ++ (onStatus findMetaError status later).1)%list,
     (onStatus findMetaError status later).2).
Proof.
  intros Hstatus Hdec. unfold onStatus. rewrite Hstatus.
  destruct (forEach_all_decodable _ (filter_failed_Forall events)
              (filter_decodable events Hdec)) as [Ho _].
  rewrite List.filter_app, forEach_app.
  destruct (forEach (reportFailure findMetaError) (List.filter isExtrinsicFailed events))
    as [lines o]. cbn [fst snd] in *. rewrite Ho. reflexivity.
Qed.

(** X16.  Once the status is in block or finalized, and the metadata can
    decode every module error among the events, the callback completes
    normally and logs exactly one line per [ExtrinsicFailed] event; events
    that follow are reported after these, in order. *)
Theorem onStatus_reports_every_failure
    (status : ExtrinsicStatus) (events later : list EventRecord) :
  isInBlock status || isFinalized status = true ->
  Forall (decodable findMetaError) events ->
  (onStatus findMetaError status events).2 = Done ()
  /\ length (onStatus findMetaError status events).1
     = length (List.filter isExtrinsicFailed events)
  /\ onStatus findMetaError status (events ++ later)
     = (((onStatus findMetaError status events).1
          ++ (onStatus findMetaError status later).1)%list,
        (onStatus findMetaError status later).2).
Proof.
  intros Hstatus Hdec.
  split; [|split; [|apply onStatus_app_decodable; assumption]];
    unfold onStatus; rewrite Hstatus;
    apply (forEach_all_decodable _ (filter_failed_Forall events)
             (filter_decodable events Hdec)).
Qed.

(** X17.  A module error that the metadata cannot decode stops the report:
    the callback throws what [findMetaError] threw, keeps the lines logged
    for the events before it, and logs nothing for that event or any later
    one. *)
Theorem onStatus_stops_at_unknown_module_error
    (status : ExtrinsicStatus) (before after : list EventRecord)
    (index error : Z) (message : string) :
  isInBlock status || isFinalized status = true ->
  Forall (decodable findMetaError) before ->
  findMetaError index error = Raised message ->
  onStatus findMetaError status
    (before ++ ExtrinsicFailed (ModuleError index error) :: after)
  = ((onStatus findMetaError status before).1, Raised message).
Proof.
  intros Hstatus Hdec Hraise.
  rewrite (onStatus_app_decodable status before
             (ExtrinsicFailed (ModuleError index error) :: after) Hstatus Hdec).
  unfold onStatus at 2 3. rewrite Hstatus.
  cbn [List.filter isExtrinsicFailed forEach reportFailure]. rewrite Hraise.
  cbn [fst snd]. rewrite app_nil_r. reflexivity.
Qed.

End StatusCallback.

Section StatusCallbackExamples.
Import TestNetworkSetup.

Example onStatus_logs_decoded_line :
  onStatus Scenarios.assetsMeta {| isInBlock := true; isFinalized := false |}
    [OtherEvent "balances" "Withdraw";
     ExtrinsicFailed (ModuleError 50 3);
     OtherEvent "system" "ExtrinsicSuccess";
     ExtrinsicFailed (PlainError "BadOrigin")]
  = (["assets.InUse: The asset ID is already taken."; "BadOrigin"], Done ()).
Proof. vm_compute. reflexivity. Qed.

Lemma onStatus_line_bound_witness :
  onStatus Scenarios.assetsMeta {| isInBlock := false; isFinalized := false |}
    [ExtrinsicFailed (ModuleError 50 3); ExtrinsicFailed (ModuleError 7 1)]
  = ([], Done ()).
Proof.
  apply (onStatus_line_bound Scenarios.assetsMeta
           {| isInBlock := false; isFinalized := false |}
           [ExtrinsicFailed (ModuleError 50 3); ExtrinsicFailed (ModuleError 7 1)]).
  reflexivity.
Defined.

Lemma onStatus_reports_every_failure_witness :
  (onStatus Scenarios.assetsMeta {| isInBlock := false; isFinalized := true |}
     [OtherEvent "balances" "Withdraw"; ExtrinsicFailed (ModuleError 50 3);
      ExtrinsicFailed (PlainError "BadOrigin")]).2 = Done ()
  /\ length (onStatus Scenarios.assetsMeta {| isInBlock := false; isFinalized := true |}
               [OtherEvent "balances" "Withdraw"; ExtrinsicFailed (ModuleError 50 3);
                ExtrinsicFailed (PlainError "BadOrigin")]).1
     = 2%nat.
Proof.
  pose proof (onStatus_reports_every_failure Scenarios.assetsMeta
                {| isInBlock := false; isFinalized := true |}
                [OtherEvent "balances" "Withdraw"; ExtrinsicFailed (ModuleError 50 3);
                 ExtrinsicFailed (PlainError "BadOrigin")] []) as H.
  destruct H as (Hdone & Hlen & _).
  - reflexivity.
  - repeat constructor. cbn. eexists. reflexivity.
  - split; [exact Hdone | exact Hlen].
Defined.

Lemma onStatus_stops_at_unknown_module_error_witness :
  onStatus Scenarios.assetsMeta {| isInBlock := true; isFinalized := true |}
    ([ExtrinsicFailed (PlainError "BadOrigin")]
       ++ ExtrinsicFailed (ModuleError 7 1) :: [ExtrinsicFailed (ModuleError 50 3)])
  = ((onStatus Scenarios.assetsMeta {| isInBlock := true; isFinalized := true |}
        [ExtrinsicFailed (PlainError "BadOrigin")]).1,
     Raised "findMetaError: Unable to find Error").
Proof.
  apply (onStatus_stops_at_unknown_module_error Scenarios.assetsMeta
           {| isInBlock := true; isFinalized := true |}
           [ExtrinsicFailed (PlainError "BadOrigin")]
           [ExtrinsicFailed (ModuleError 50 3)] 7 1).
  - reflexivity.
  - repeat constructor.
  - reflexivity.
Defined.

End StatusCallbackExamples.
